(** * The MbedTLS conan recipe (conan/conan-mbedtls.py)

    A shallow embedding of the recipe class [MbedTLS]: its class
    attributes, and its lifecycle methods as programs of a small
    state-and-exception monad whose external calls (git, patch, the
    CMake helpers) are answered by an arbitrary environment. *)

From Stdlib Require Import Ascii String.
From stdpp Require Import gmap strings list.

Open Scope string_scope.

(** ** Python helpers used by the recipe *)

(** The f-string of line 15, [f"{name}-{branch}.patch"]. *)
Definition fstring_patch_file (name branch : string) : string :=
  name +:+ "-" +:+ branch +:+ ".patch".

Definition startswith (p s : string) : bool := String.prefix p s.

Fixpoint endswith_sep (s : string) : bool :=
  match s with
  | "" => false
  | String c "" => bool_decide (c = "/"%char)
  | String _ rest => endswith_sep rest
  end.

(** [os.path.join(a, b)] of the POSIX path module, two components: an
    absolute [b] replaces [a]; an empty [a], or one that ends with the
    separator, is extended by [b] alone; otherwise the separator goes in
    between. *)
Definition os_path_join (a b : string) : string :=
  if startswith "/" b then b
  else if bool_decide (a = "") || endswith_sep a then a +:+ b
  else a +:+ "/" +:+ b.

(** ** Class attributes (lines 8-16) *)

Record RecipeAttrs := {
  name : string;
  branch : string;
  version : string;
  settings : list string;
  options : gmap string (list string);
  default_options : gmap string string;
  patch_file : string;
  exports_sources : string
}.

(** The class body, with the two literals of lines 8 and 9 as arguments:
    [version] is a literal of its own (line 10), [patch_file] is computed
    from [name] and [branch] (line 15), [exports_sources] is bound to the
    value of [patch_file] (line 16). *)
Definition class_body (name_lit branch_lit : string) : RecipeAttrs :=
  let patch_file_val := fstring_patch_file name_lit branch_lit in
  {| name := name_lit;
     branch := branch_lit;
     version := "patched-v3.5.0";
     settings := ["os"; "compiler"; "build_type"; "arch"];
     options := ∅;
     default_options := ∅;
     patch_file := patch_file_val;
     exports_sources := patch_file_val |}.

(** The recipe as written. *)
Definition MbedTLS : RecipeAttrs := class_body "mbedtls" "v3.5.0".


(** ** Recipe instances

    What the methods read through [self]: the class attributes, and the
    attributes the runner and the consumer put on the instance. *)

Record Ambient := {
  export_sources_folder : string;
  option_values : gmap string string;   (* options a consumer supplied *)
  settings_values : gmap string string
}.

Record ConanFile := Instance {
  recipe : RecipeAttrs;
  ambient : Ambient
}.

(** ** External collaborators

    The recipe drives conan helpers that live outside the repository.
    Each use of one is an event, carrying the arguments the recipe
    passes; what it does to the outside world, and whether it raises, is
    left to the environment. *)

Inductive ExtCall :=
| GitNew (conanfile : ConanFile)               (* Git(self) *)
| GitClone (url : string) (args : list string)
| Patch (conanfile : ConanFile) (patch_file_arg base_path : string)
| CMakeLayout (conanfile : ConanFile)          (* cmake_layout(self) *)
| CMakeToolchainNew (conanfile : ConanFile)    (* CMakeToolchain(self) *)
| CMakeToolchainGenerate                       (* tc.generate() *)
| CMakeNew (conanfile : ConanFile)             (* CMake(self) *)
| CMakeConfigure (variables : option (gmap string string))
                 (build_script_folder : option string)
| CMakeBuild
| CMakeInstall.

(** The calls that run the external build tool. *)
Definition is_build_tool_call (c : ExtCall) : bool :=
  match c with
  | CMakeConfigure _ _ | CMakeBuild | CMakeInstall => true
  | _ => false
  end.

Definition configure_args (c : ExtCall)
  : option (option (gmap string string) * option string) :=
  match c with
  | CMakeConfigure v f => Some (v, f)
  | _ => None
  end.

(** The arguments of every configure call of a log, in order. *)
Definition configure_calls (log : list ExtCall)
  : list (option (gmap string string) * option string) :=
  omap configure_args log.

Definition clone_args_of (c : ExtCall) : option (string * list string) :=
  match c with
  | GitClone url args => Some (url, args)
  | _ => None
  end.

Definition clone_calls (log : list ExtCall) : list (string * list string) :=
  omap clone_args_of log.

Definition patch_args_of (c : ExtCall) : option (string * string) :=
  match c with
  | Patch _ pf base => Some (pf, base)
  | _ => None
  end.

Definition patch_calls (log : list ExtCall) : list (string * string) :=
  omap patch_args_of log.

Inductive exn := Raised (diagnostic : string).

Inductive Outcome := Returned | Raises (e : exn).

(** [self.cpp_info], as far as the recipe touches it. *)
Record CppInfo := {
  builddirs : list string;
  properties : gmap string string
}.

(** [cpp_info.set_property(k, v)] of conan: the property table maps [k]
    to [v] afterwards. *)
Definition set_property (k v : string) (ci : CppInfo) : CppInfo :=
  {| builddirs := builddirs ci; properties := <[k:=v]> (properties ci) |}.

Definition set_builddirs (dirs : list string) (ci : CppInfo) : CppInfo :=
  {| builddirs := dirs; properties := properties ci |}.

(** ** The monad of recipe methods *)

Section Monad.
Context {W : Type}.

Record St := {
  world : W;
  cpp_info : CppInfo;
  calls : list ExtCall     (* external calls so far, oldest first *)
}.

Definition M (A : Type) : Type := St → (exn + A) * St.

Definition ret {A} (a : A) : M A := λ st, (inr a, st).

Definition bind {A B} (m : M A) (k : A → M B) : M B :=
  λ st, match m st with
        | (inl e, st') => (inl e, st')
        | (inr a, st') => k a st'
        end.

(** An external call: logged, then answered by the environment; the
    world moves on even when the call raises. *)
Definition call (ext : ExtCall → W → Outcome * W) (c : ExtCall) : M unit :=
  λ st, let '(o, w') := ext c (world st) in
        let st' := {| world := w'; cpp_info := cpp_info st;
                      calls := calls st ++ [c] |} in
        match o with
        | Returned => (inr (), st')
        | Raises e => (inl e, st')
        end.

Definition modify_cpp_info (f : CppInfo → CppInfo) : M unit :=
  λ st, (inr (), {| world := world st; cpp_info := f (cpp_info st);
                    calls := calls st |}).
End Monad.

Arguments St : clear implicits.
Arguments M : clear implicits.

Notation "m1 ;;; m2" := (bind m1 (λ _, m2))
  (at level 100, m2 at level 200, right associativity).

(** ** The methods of [MbedTLS] (lines 18-43) *)

Definition build_variables : gmap string string :=
  <["ENABLE_TESTING" := "OFF"]> (<["ENABLE_PROGRAMS" := "OFF"]> ∅).

Section Methods.
Context {W : Type}.
Variable ext : ExtCall → W → Outcome * W.

Definition source (self : ConanFile) : M W unit :=
  call ext (GitNew self) ;;;
  let clone_args := ["--depth"; "1"; "--branch"; branch (recipe self)] in
  call ext (GitClone "https://github.com/Mbed-TLS/mbedtls.git" clone_args) ;;;
  call ext (Patch self
              (os_path_join (export_sources_folder (ambient self))
                            (patch_file (recipe self)))
              (name (recipe self))).

Definition layout (self : ConanFile) : M W unit :=
  call ext (CMakeLayout self).

Definition generate (self : ConanFile) : M W unit :=
  call ext (CMakeToolchainNew self) ;;;
  call ext CMakeToolchainGenerate.

Definition build (self : ConanFile) : M W unit :=
  call ext (CMakeNew self) ;;;
  let variables := build_variables in
  call ext (CMakeConfigure (Some variables) (Some (name (recipe self)))) ;;;
  call ext CMakeBuild.

Definition package (self : ConanFile) : M W unit :=
  call ext (CMakeNew self) ;;;
  call ext CMakeInstall.

Definition package_info (self : ConanFile) : M W unit :=
  modify_cpp_info (set_builddirs ["lib/cmake/MbedTLS/"]) ;;;
  modify_cpp_info (set_property "cmake_find_mode" "none").

(** Modelled from the spec: the recipe runner, which belongs to the
    host package manager and is not part of the repository.  "Control
    flow is strictly linear: Locator → Applier → Planner → Executor →
    Descriptor", "a plain ordered sequence of fallible steps with
    early-exit-on-error": fetch and patch ([source]), plan
    ([generate]), configure and build ([build]), install ([package]),
    describe ([package_info]). *)
Definition run_recipe (self : ConanFile) : M W unit :=
  source self ;;; generate self ;;; build self ;;; package self ;;;
  package_info self.
End Methods.

(** ** Observing a run *)

(** The external calls a run added to the log. *)
Definition new_calls {W} (st st' : St W) : list ExtCall :=
  drop (length (calls st)) (calls st').

(** The calls issued when a straight-line script of external calls is run
    against an environment: each call is made once those before it have
    returned, and the first one that raises is the last. *)
Fixpoint issued {W} (ext : ExtCall → W → Outcome * W) (w : W)
    (script : list ExtCall) : list ExtCall :=
  match script with
  | [] => []
  | c :: rest =>
      c :: match ext c w with
           | (Returned, w') => issued ext w' rest
           | (Raises _, _) => []
           end
  end.

(** The world such a script leaves behind. *)
Fixpoint world_after {W} (ext : ExtCall → W → Outcome * W) (w : W)
    (script : list ExtCall) : W :=
  match script with
  | [] => w
  | c :: rest =>
      match ext c w with
      | (Returned, w') => world_after ext w' rest
      | (Raises _, w') => w'
      end
  end.

(** The result of running such a script. *)
Fixpoint result_after {W} (ext : ExtCall → W → Outcome * W) (w : W)
    (script : list ExtCall) : exn + () :=
  match script with
  | [] => inr ()
  | c :: rest =>
      match ext c w with
      | (Returned, w') => result_after ext w' rest
      | (Raises e, _) => inl e
      end
  end.

(** Running a whole script from a state. *)
Definition run_script {W} (ext : ExtCall → W → Outcome * W)
    (script : list ExtCall) (st : St W) : (exn + ()) * St W :=
  (result_after ext (world st) script,
   {| world := world_after ext (world st) script;
      cpp_info := cpp_info st;
      calls := calls st ++ issued ext (world st) script |}).

(** The scripts of [source] and [build]. *)
Definition source_script (self : ConanFile) : list ExtCall :=
  [GitNew self;
   GitClone "https://github.com/Mbed-TLS/mbedtls.git"
     ["--depth"; "1"; "--branch"; branch (recipe self)];
   Patch self
     (os_path_join (export_sources_folder (ambient self))
                   (patch_file (recipe self)))
     (name (recipe self))].

Definition build_script (self : ConanFile) : list ExtCall :=
  [CMakeNew self;
   CMakeConfigure (Some build_variables) (Some (name (recipe self)));
   CMakeBuild].

(** ** A sample environment

    Used for concrete runs only; the theorems quantify over every
    environment.  The world is the list of paths on disk.  The clone
    leaves a checkout in [mbedtls/]; [patch] raises when the patch file
    is not on disk; the toolchain generator writes its toolchain file,
    as conan's [CMakeToolchain.generate] does. *)

Definition sample_ext (c : ExtCall) (disk : list string)
  : Outcome * list string :=
  match c with
  | GitClone _ _ => (Returned, "mbedtls/CMakeLists.txt" :: disk)
  | Patch _ pf _ =>
      if bool_decide (pf ∈ disk) then (Returned, disk)
      else (Raises (Raised ("cannot read patch " +:+ pf)), disk)
  | CMakeToolchainGenerate => (Returned, "conan_toolchain.cmake" :: disk)
  | _ => (Returned, disk)
  end.

Definition sample_ambient : Ambient :=
  {| export_sources_folder := "/cache/es";
     option_values := ∅;
     settings_values := ∅ |}.

Definition fresh_cpp_info : CppInfo :=
  {| builddirs := []; properties := ∅ |}.

Definition start (disk : list string) : St (list string) :=
  {| world := disk; cpp_info := fresh_cpp_info; calls := [] |}.

(** ** Kinds of external calls *)

(** The build-tool calls of a log, in order. *)
Definition build_tool_calls (log : list ExtCall) : list ExtCall :=
  List.filter is_build_tool_call log.

(** The calls that fetch or patch the source tree. *)
Definition is_scm_call (c : ExtCall) : bool :=
  match c with
  | GitNew _ | GitClone _ _ | Patch _ _ _ => true
  | _ => false
  end.

Definition scm_calls (log : list ExtCall) : list ExtCall :=
  List.filter is_scm_call log.

(** ** Statements that are tested against the recipe *)

(** How the class attributes of the recipe hang together: the version is
    the pinned revision behind the marker "patched-" (lines 9 and 10),
    and the patch file is named after name and revision (line 15). *)
Definition pinned_consistently (cls : RecipeAttrs) : Prop :=
  version cls = "patched-" +:+ branch cls ∧
  patch_file cls = fstring_patch_file (name cls) (branch cls).

(** The recipe written for another name or revision in the same way: the
    class body with lines 8 and 9 changed and the revision inside the
    version of line 10 changed with them.  At the name and revision of
    the source it is the recipe as written. *)
Definition pinned_at (name_lit branch_lit : string) : RecipeAttrs :=
  let patch_file_val := fstring_patch_file name_lit branch_lit in
  {| name := name_lit;
     branch := branch_lit;
     version := "patched-" +:+ branch_lit;
     settings := ["os"; "compiler"; "build_type"; "arch"];
     options := ∅;
     default_options := ∅;
     patch_file := patch_file_val;
     exports_sources := patch_file_val |}.

(** [generate] leaves the outside world as it found it. *)
Definition generate_leaves_world_unchanged : Prop :=
  ∀ (W : Type) (ext : ExtCall → W → Outcome * W) (self : ConanFile)
    (st : St W),
    world (generate ext self st).2 = world st.

(** * Properties *)

(** ** Strings *)

Lemma string_length_app (s t : string) :
  String.length (s +:+ t) = String.length s + String.length t.
Proof. induction s as [|a s IH]; simpl; [done | by rewrite IH]. Qed.

Lemma string_app_inj_r (suffix s t : string) :
  s +:+ suffix = t +:+ suffix → s = t.
Proof.
  revert t. induction s as [|a s IH]; intros [|b t] H.
  - done.
  - apply (f_equal String.length) in H.
    rewrite !string_length_app in H. simpl in H. lia.
  - apply (f_equal String.length) in H.
    rewrite !string_length_app in H. simpl in H. lia.
  - change (String a (s +:+ suffix) = String b (t +:+ suffix)) in H.
    injection H as -> H. f_equal. by apply IH.
Qed.

Lemma fstring_patch_file_inj_branch (n b1 b2 : string) :
  fstring_patch_file n b1 = fstring_patch_file n b2 → b1 = b2.
Proof.
  unfold fstring_patch_file. intros H.
  apply (inj (String.app n)) in H.
  apply (inj (String.app "-")) in H.
  by apply string_app_inj_r in H.
Qed.

(** ** Runs of the methods

    Each method that only talks to the outside runs as the script of its
    calls. *)

Section Runs.
Context {W : Type}.
Variable ext : ExtCall → W → Outcome * W.
Variable self : ConanFile.

Ltac step_calls :=
  repeat match goal with
    | |- context [ext ?c ?w] =>
        let E := fresh "E" in
        destruct (ext c w) as [[|?] ?] eqn:E; simpl
    end;
  rewrite <- ?app_assoc; try reflexivity.

Lemma source_run (st : St W) :
  source ext self st = run_script ext (source_script self) st.
Proof. unfold source, run_script, bind, call; simpl. step_calls. Qed.

Lemma generate_run (st : St W) :
  generate ext self st =
  run_script ext [CMakeToolchainNew self; CMakeToolchainGenerate] st.
Proof. unfold generate, run_script, bind, call; simpl. step_calls. Qed.

Lemma build_run (st : St W) :
  build ext self st = run_script ext (build_script self) st.
Proof. unfold build, run_script, bind, call; simpl. step_calls. Qed.

Lemma package_run (st : St W) :
  package ext self st = run_script ext [CMakeNew self; CMakeInstall] st.
Proof. unfold package, run_script, bind, call; simpl. step_calls. Qed.

Lemma new_calls_run_script (script : list ExtCall) (st : St W) :
  new_calls st (run_script ext script st).2 = issued ext (world st) script.
Proof. unfold new_calls; simpl. apply drop_app_length. Qed.
End Runs.

(** ** The recipe identity *)


Lemma pinned_at_consistently (n b : string) :
  pinned_consistently (pinned_at n b).
Proof. by split. Qed.

Lemma pinned_at_as_written : pinned_at "mbedtls" "v3.5.0" = MbedTLS.
Proof. reflexivity. Qed.




(** C2: the version of the recipe is "patched-v3.5.0" and its pinned
    revision "v3.5.0"; the version is the revision behind the marker
    "patched-", and it is not the revision itself. *)
Theorem version_marks_patched_revision :
  version MbedTLS = "patched-v3.5.0" ∧
  branch MbedTLS = "v3.5.0" ∧
  version MbedTLS = "patched-" +:+ branch MbedTLS ∧
  version MbedTLS ≠ branch MbedTLS.
Proof. repeat split; done. Qed.

(** ** What the methods hand to the outside *)

Ltac case_ext :=
  repeat match goal with
    | |- context [?ext ?c ?w] =>
        match type of (ext c w) with
        | (Outcome * _)%type =>
            let E := fresh "E" in
            destruct (ext c w) as [[|?] ?] eqn:E; simpl
        end
    end.

Lemma build_variables_lookup (k : string) :
  build_variables !! k =
  if decide (k = "ENABLE_TESTING") then Some "OFF"
  else if decide (k = "ENABLE_PROGRAMS") then Some "OFF"
  else None.
Proof.
  unfold build_variables.
  repeat case_decide; subst; simplify_map_eq; done.
Qed.

(** C3: the option map of the configure call is the two-entry map
    {ENABLE_TESTING: OFF, ENABLE_PROGRAMS: OFF}; every run of [build]
    whose [CMake(self)] returns makes exactly one configure call, with
    that map, and a run where it raises makes none. *)
Theorem build_configures_with_the_two_options {W}
    (ext : ExtCall → W → Outcome * W) (amb : Ambient) (st : St W) :
  build_variables = {[ "ENABLE_TESTING" := "OFF"; "ENABLE_PROGRAMS" := "OFF" ]} ∧
  dom build_variables = ({[ "ENABLE_TESTING"; "ENABLE_PROGRAMS" ]} : gset string) ∧
  size build_variables = 2 ∧
  (configure_calls (new_calls st (build ext (Instance MbedTLS amb) st).2)).*1 =
    match (ext (CMakeNew (Instance MbedTLS amb)) (world st)).1 with
    | Returned => [Some build_variables]
    | Raises _ => []
    end.
Proof.
  split_and!.
  - unfold build_variables. by rewrite insert_empty.
  - unfold build_variables. rewrite !dom_insert_L, dom_empty_L. set_solver.
  - unfold build_variables.
    rewrite map_size_insert_None, map_size_insert_None, map_size_empty;
      [done | done | by simplify_map_eq].
  - rewrite build_run, new_calls_run_script. simpl. case_ext; done.
Qed.

(** C7: the configure call names its build-script folder, and the folder
    is the recipe's name, "mbedtls" (the base path the patch was applied
    with); it is never left to the default. *)
Theorem build_names_the_script_folder {W}
    (ext : ExtCall → W → Outcome * W) (amb : Ambient) (st : St W) :
  let self := Instance MbedTLS amb in
  name (recipe self) = "mbedtls" ∧
  (configure_calls (new_calls st (build ext self st).2)).*2 =
    match (ext (CMakeNew self) (world st)).1 with
    | Returned => [Some "mbedtls"]
    | Raises _ => []
    end ∧
  Forall (λ a, a.2 ≠ None ∧ Forall (λ p, a.2 = Some p.2)
                              (patch_calls (source_script self)))
    (configure_calls (new_calls st (build ext self st).2)).
Proof.
  intros self. split; [done|].
  rewrite build_run, new_calls_run_script. simpl.
  case_ext; repeat constructor; done.
Qed.

(** C8: the clone is asked for depth 1 and for the pinned revision
    "v3.5.0" of the upstream repository; it is the only clone of a run of
    [source], made as soon as [Git(self)] has returned. *)
Theorem source_clones_the_pinned_revision_shallowly {W}
    (ext : ExtCall → W → Outcome * W) (amb : Ambient) (st : St W) :
  let self := Instance MbedTLS amb in
  clone_calls (new_calls st (source ext self st).2) =
    match (ext (GitNew self) (world st)).1 with
    | Returned =>
        [("https://github.com/Mbed-TLS/mbedtls.git",
          ["--depth"; "1"; "--branch"; "v3.5.0"])]
    | Raises _ => []
    end.
Proof.
  intros self. rewrite source_run, new_calls_run_script. simpl.
  case_ext; done.
Qed.

(** C9: the patch file's name is built from the identity,
    name-revision.patch, which is "mbedtls-v3.5.0.patch"; [source] runs
    git and then applies that file, looked up in the exported sources
    folder, with the recipe's name as base path. *)
Theorem patch_is_named_after_the_identity {W}
    (ext : ExtCall → W → Outcome * W) (amb : Ambient) (st : St W) :
  let self := Instance MbedTLS amb in
  patch_file MbedTLS = name MbedTLS +:+ "-" +:+ branch MbedTLS +:+ ".patch" ∧
  patch_file MbedTLS = "mbedtls-v3.5.0.patch" ∧
  exports_sources MbedTLS = patch_file MbedTLS ∧
  new_calls st (source ext self st).2 =
    issued ext (world st)
      [GitNew self;
       GitClone "https://github.com/Mbed-TLS/mbedtls.git"
         ["--depth"; "1"; "--branch"; "v3.5.0"];
       Patch self
         (os_path_join (export_sources_folder amb) "mbedtls-v3.5.0.patch")
         "mbedtls"] ∧
  Forall (λ a, a = (os_path_join (export_sources_folder amb)
                      "mbedtls-v3.5.0.patch", name MbedTLS))
    (patch_calls (new_calls st (source ext self st).2)).
Proof.
  intros self. split_and!; try done.
  - by rewrite source_run, new_calls_run_script.
  - rewrite source_run, new_calls_run_script. simpl.
    case_ext; repeat constructor.
Qed.

(** C10: the recipe declares no options, and what a consumer puts on the
    instance does not reach the configure call: in any two runs of
    [build], whatever the instances and the environments, a run whose
    [CMake(self)] returned hands the build tool exactly one configure
    call, with the fixed option map and folder, and a run where it raised
    hands it none; so every configure call of either run carries the
    same constant configuration. *)
Theorem build_configuration_ignores_the_consumer {W1 W2}
    (ext1 : ExtCall → W1 → Outcome * W1) (ext2 : ExtCall → W2 → Outcome * W2)
    (amb1 amb2 : Ambient) (st1 : St W1) (st2 : St W2) :
  let run1 := configure_calls
                (new_calls st1 (build ext1 (Instance MbedTLS amb1) st1).2) in
  let run2 := configure_calls
                (new_calls st2 (build ext2 (Instance MbedTLS amb2) st2).2) in
  options MbedTLS = ∅ ∧
  default_options MbedTLS = ∅ ∧
  run1 = match (ext1 (CMakeNew (Instance MbedTLS amb1)) (world st1)).1 with
         | Returned => [(Some build_variables, Some "mbedtls")]
         | Raises _ => []
         end ∧
  run2 = match (ext2 (CMakeNew (Instance MbedTLS amb2)) (world st2)).1 with
         | Returned => [(Some build_variables, Some "mbedtls")]
         | Raises _ => []
         end ∧
  Forall (λ a, a = (Some build_variables, Some "mbedtls")) (run1 ++ run2) ∧
  Forall (λ a1, Forall (λ a2, a1 = a2) run2) run1.
Proof.
  intros run1 run2. subst run1 run2.
  rewrite !build_run, !new_calls_run_script. simpl.
  split_and!; try done; case_ext; repeat constructor.
Qed.

(** ** Metadata, planning and failure *)

(** C4: [package_info] publishes two facts and nothing else: the build
    directories become the single path "lib/cmake/MbedTLS/" and the
    property "cmake_find_mode" becomes "none"; it makes no external call
    and cannot fail.  On a descriptor with no properties yet, these are
    all the facts there are. *)
Theorem package_info_publishes_two_facts {W} (self : ConanFile) (st : St W) :
  package_info self st =
    (inr (),
     {| world := world st;
        cpp_info :=
          {| builddirs := ["lib/cmake/MbedTLS/"];
             properties :=
               <["cmake_find_mode" := "none"]> (properties (cpp_info st)) |};
        calls := calls st |}) ∧
  cpp_info (package_info self
              {| world := world st; cpp_info := fresh_cpp_info;
                 calls := calls st |}).2 =
    {| builddirs := ["lib/cmake/MbedTLS/"];
       properties := {[ "cmake_find_mode" := "none" ]} |}.
Proof.
  split; [done|].
  unfold package_info, bind, modify_cpp_info, set_property, set_builddirs,
    fresh_cpp_info; simpl.
  by rewrite insert_empty.
Qed.

(** C5, as stated, fails: in the sample environment the toolchain
    generator writes its file, and the disk after [generate] is not the
    disk before. *)
Lemma generate_changes_the_disk : ¬ generate_leaves_world_unchanged.
Proof.
  intros H.
  specialize (H _ sample_ext (Instance MbedTLS sample_ambient) (start [])).
  discriminate H.
Qed.

(** C5, amended: [generate] returns nothing and leaves the package
    descriptor alone; its external calls are the construction of the
    toolchain generator and that generator's own generate operation, in
    this order, never git, patch or the build tool; the outside world
    after it is the one these two calls leave. *)
Theorem generate_only_drives_the_toolchain_generator {W}
    (ext : ExtCall → W → Outcome * W) (self : ConanFile) (st : St W) :
  let script := [CMakeToolchainNew self; CMakeToolchainGenerate] in
  let st' := (generate ext self st).2 in
  cpp_info st' = cpp_info st ∧
  new_calls st st' = issued ext (world st) script ∧
  world st' = world_after ext (world st) script ∧
  (generate ext self st).1 = result_after ext (world st) script ∧
  Forall (λ c, c ∈ script) (new_calls st st') ∧
  existsb is_build_tool_call (new_calls st st') = false.
Proof.
  intros script st'. subst script st'.
  rewrite generate_run, new_calls_run_script. simpl.
  split_and!; try done; case_ext; try done;
    repeat constructor; set_solver.
Qed.

(** C6: when git has fetched the tree and the patch call raises (the
    patch file is missing, or a hunk does not apply), [source] raises
    that error, and so does the whole run; the run stops there, with git
    and patch as its only external calls: the build tool has not been
    invoked and the descriptor is untouched. *)
Theorem failed_patch_stops_the_run {W}
    (ext : ExtCall → W → Outcome * W) (amb : Ambient) (st : St W)
    (w1 w2 w3 : W) (e : exn) :
  let self := Instance MbedTLS amb in
  let clone := GitClone "https://github.com/Mbed-TLS/mbedtls.git"
                 ["--depth"; "1"; "--branch"; "v3.5.0"] in
  let apply_patch :=
    Patch self (os_path_join (export_sources_folder amb) "mbedtls-v3.5.0.patch")
      "mbedtls" in
  let halted := {| world := w3; cpp_info := cpp_info st;
                   calls := calls st ++ [GitNew self; clone; apply_patch] |} in
  ext (GitNew self) (world st) = (Returned, w1) →
  ext clone w1 = (Returned, w2) →
  ext apply_patch w2 = (Raises e, w3) →
  source ext self st = (inl e, halted) ∧
  run_recipe ext self st = (inl e, halted) ∧
  existsb is_build_tool_call (new_calls st halted) = false.
Proof.
  intros self clone apply_patch halted H1 H2 H3.
  assert (Hsrc : source ext self st = (inl e, halted)).
  { rewrite source_run. unfold run_script, source_script; simpl.
    fold self clone. change (os_path_join _ _) with
      (os_path_join (export_sources_folder amb) "mbedtls-v3.5.0.patch").
    fold apply_patch. by rewrite H1, H2, H3. }
  split_and!.
  - done.
  - unfold run_recipe, bind at 1. by rewrite Hsrc.
  - unfold new_calls, halted; simpl. by rewrite drop_app_length.
Qed.

Lemma failed_patch_stops_the_run_witness :
  let self := Instance MbedTLS sample_ambient in
  let halted :=
    {| world := ["mbedtls/CMakeLists.txt"]; cpp_info := fresh_cpp_info;
       calls := [GitNew self;
                 GitClone "https://github.com/Mbed-TLS/mbedtls.git"
                   ["--depth"; "1"; "--branch"; "v3.5.0"];
                 Patch self "/cache/es/mbedtls-v3.5.0.patch" "mbedtls"] |} in
  let e := Raised "cannot read patch /cache/es/mbedtls-v3.5.0.patch" in
  source sample_ext self (start []) = (inl e, halted) ∧
  run_recipe sample_ext self (start []) = (inl e, halted) ∧
  existsb is_build_tool_call (new_calls (start []) halted) = false.
Proof.
  intros self halted e.
  apply (failed_patch_stops_the_run sample_ext sample_ambient (start [])
           [] ["mbedtls/CMakeLists.txt"] ["mbedtls/CMakeLists.txt"] e);
    reflexivity.
Defined.


(** * Further properties of the methods *)

Lemma layout_run {W} (ext : ExtCall → W → Outcome * W) (self : ConanFile)
    (st : St W) :
  layout ext self st = run_script ext [CMakeLayout self] st.
Proof. unfold layout, run_script, call; simpl. case_ext; done. Qed.

(** X2: the stages keep to their tools.  [source] never runs the build
    tool; [build] and [package] never call git or patch; [layout] and
    [generate] do neither. *)
Theorem stages_keep_to_their_tools {W}
    (ext : ExtCall → W → Outcome * W) (self : ConanFile) (st : St W) :
  build_tool_calls (new_calls st (source ext self st).2) = [] ∧
  scm_calls (new_calls st (build ext self st).2) = [] ∧
  scm_calls (new_calls st (package ext self st).2) = [] ∧
  build_tool_calls (new_calls st (layout ext self st).2) = [] ∧
  scm_calls (new_calls st (layout ext self st).2) = [] ∧
  build_tool_calls (new_calls st (generate ext self st).2) = [] ∧
  scm_calls (new_calls st (generate ext self st).2) = [].
Proof.
  rewrite source_run, layout_run, generate_run, build_run, package_run.
  rewrite !new_calls_run_script. simpl.
  split_and!; case_ext; done.
Qed.

(** X3: [source] patches only what git has fetched: the patch call is
    made when, and only when, both [Git(self)] and the clone returned;
    if one of them raises, [source] raises that same error and no patch
    is attempted. *)
Theorem source_patches_only_after_clone {W}
    (ext : ExtCall → W → Outcome * W) (self : ConanFile) (st : St W) :
  let clone := GitClone "https://github.com/Mbed-TLS/mbedtls.git"
                 ["--depth"; "1"; "--branch"; branch (recipe self)] in
  let apply_patch :=
    Patch self
      (os_path_join (export_sources_folder (ambient self))
                    (patch_file (recipe self)))
      (name (recipe self)) in
  let run := source ext self st in
  match ext (GitNew self) (world st) with
  | (Raises e, _) => run.1 = inl e ∧ new_calls st run.2 = [GitNew self]
  | (Returned, w1) =>
      match ext clone w1 with
      | (Raises e, _) =>
          run.1 = inl e ∧ new_calls st run.2 = [GitNew self; clone]
      | (Returned, w2) =>
          new_calls st run.2 = [GitNew self; clone; apply_patch] ∧
          run.1 = match (ext apply_patch w2).1 with
                  | Returned => inr ()
                  | Raises e => inl e
                  end
      end
  end.
Proof.
  intros clone apply_patch run. subst clone apply_patch run.
  rewrite source_run, new_calls_run_script. simpl.
  case_ext; done.
Qed.

(** X4: [build] runs the build step only on a configured tree: the
    build-tool calls of a run are none when [CMake(self)] raises, the
    configure call alone when configure raises, and configure followed by
    build otherwise; the error of the first call that raises is the
    error of [build]. *)
Theorem build_builds_only_after_configure {W}
    (ext : ExtCall → W → Outcome * W) (self : ConanFile) (st : St W) :
  let configure :=
    CMakeConfigure (Some build_variables) (Some (name (recipe self))) in
  let run := build ext self st in
  match ext (CMakeNew self) (world st) with
  | (Raises e, _) =>
      run.1 = inl e ∧ build_tool_calls (new_calls st run.2) = []
  | (Returned, w1) =>
      match ext configure w1 with
      | (Raises e, _) =>
          run.1 = inl e ∧ build_tool_calls (new_calls st run.2) = [configure]
      | (Returned, w2) =>
          build_tool_calls (new_calls st run.2) = [configure; CMakeBuild] ∧
          run.1 = match (ext CMakeBuild w2).1 with
                  | Returned => inr ()
                  | Raises e => inl e
                  end
      end
  end.
Proof.
  intros configure run. subst configure run.
  rewrite build_run, new_calls_run_script. simpl.
  case_ext; done.
Qed.

(** X5: [package] installs and does nothing else with the build tool: it
    never configures or builds again; install is called exactly once when
    [CMake(self)] returned and not at all when it raised, and [package]
    succeeds exactly when both calls returned. *)
Theorem package_only_installs {W}
    (ext : ExtCall → W → Outcome * W) (self : ConanFile) (st : St W) :
  let run := package ext self st in
  configure_calls (new_calls st run.2) = [] ∧
  match ext (CMakeNew self) (world st) with
  | (Raises e, _) =>
      run.1 = inl e ∧ build_tool_calls (new_calls st run.2) = []
  | (Returned, w1) =>
      build_tool_calls (new_calls st run.2) = [CMakeInstall] ∧
      run.1 = match (ext CMakeInstall w1).1 with
              | Returned => inr ()
              | Raises e => inl e
              end
  end.
Proof.
  intros run. subst run.
  rewrite package_run, new_calls_run_script. simpl.
  case_ext; done.
Qed.

(** X7: [package_info] can be repeated and overrides what was there:
    running it twice leaves the state it leaves when run once; afterwards
    "cmake_find_mode" is "none" whatever it was, and every other property
    of the descriptor is what it was before. *)
Theorem package_info_is_idempotent {W} (self self' : ConanFile) (st : St W) :
  (package_info self ;;; package_info self') st = package_info self st ∧
  ∀ k : string,
    properties (cpp_info (package_info self st).2) !! k =
      if decide (k = "cmake_find_mode") then Some "none"
      else properties (cpp_info st) !! k.
Proof.
  unfold package_info, bind, modify_cpp_info, set_property, set_builddirs;
    simpl.
  split.
  - by rewrite insert_insert_eq.
  - intros k. case_decide; subst; by simplify_map_eq.
Qed.

(** X8: what a patch file's name determines.  For a fixed revision the
    name of the patch file determines the recipe's name; a name and a
    revision together are not determined by it, since the dash that joins
    them may also occur inside either. *)
Theorem patch_file_name_determines_the_name :
  (∀ n1 n2 b : string,
     patch_file (class_body n1 b) = patch_file (class_body n2 b) ↔ n1 = n2) ∧
  ¬ (∀ n1 b1 n2 b2 : string,
       patch_file (class_body n1 b1) = patch_file (class_body n2 b2) →
       n1 = n2 ∧ b1 = b2).
Proof.
  split.
  - intros n1 n2 b. split; [|by intros ->].
    simpl. unfold fstring_patch_file. apply string_app_inj_r.
  - intros H. by destruct (H "a-b" "c" "a" "b-c" eq_refl).
Qed.

(** X9: the recipe stays consistent when it is pinned anew.  For a class
    body with any name and revision: every clone of [source] asks for
    that revision, every patch it applies is the exported file (found in
    the exported-sources folder), whose name carries the same revision,
    and the base path of the patch is the folder [build] configures. *)
Theorem repinned_recipe_is_consistent {W}
    (ext : ExtCall → W → Outcome * W) (n b : string) (amb : Ambient)
    (st : St W) :
  let cls := class_body n b in
  let self := Instance cls amb in
  let fetched := new_calls st (source ext self st).2 in
  let built := new_calls st (build ext self st).2 in
  exports_sources cls = n +:+ "-" +:+ b +:+ ".patch" ∧
  Forall (λ c, c.2 = ["--depth"; "1"; "--branch"; b]) (clone_calls fetched) ∧
  Forall (λ p, p.1 = os_path_join (export_sources_folder amb)
                       (exports_sources cls) ∧
               Forall (λ a, a.2 = Some p.2) (configure_calls built))
    (patch_calls fetched).
Proof.
  intros cls self fetched built. subst cls self fetched built.
  rewrite source_run, build_run, !new_calls_run_script. simpl.
  split_and!; [done| |]; case_ext; repeat constructor.
Qed.
